(** * KORE desktop overlay: the chat relay and the window controller

    A shallow embedding of the Electron main process (the file with
    [createWindow], the global shortcut, the three [ipcMain] handlers and
    the [app] life-cycle hooks) and of the preload bridge.

    The main process is JavaScript: the data it handles are JSON values
    parsed from the upstream response, and its only control structure of
    interest is one [try]/[catch] around an [await fetch] and a chain of
    property reads.  The embedding therefore has three layers:

    - [Js]: JavaScript values, the conversions and property reads the
      handler performs on them, and thrown [Error] objects;
    - [Relay]: the ['chat-request'] handler over an explicit network;
    - [Controller]: the window, the handlers bound to it, and the part of
      Electron's life cycle that decides whether the process goes on. *)

From Stdlib Require Import String Ascii List Bool ZArith Lia Arith.
From Stdlib Require Import DecimalString.
Import ListNotations.
Local Open Scope string_scope.
Set Warnings "-register-all".

(* ===================================================================== *)
(** ** JavaScript values *)
(* ===================================================================== *)

Module Js.

(** A JavaScript number.  The program never computes with numbers: a
    number that comes out of [response.json()] can only be tested for
    truthiness, converted to a string, or handed back unchanged.  It is
    kept as those two observations: [num_truthy] is [ToBoolean] (false for
    [0], [-0] and [NaN]) and [num_text] is [ToString]. *)
Record number := mkNumber { num_truthy : bool; num_text : string }.

(** Values: what [JSON.parse] builds, plus [undefined], which property
    reads produce.  An object is its own-property table in insertion
    order; a read takes the first entry with the name. *)
Inductive value :=
| VUndefined
| VNull
| VBool (b : bool)
| VNum (n : number)
| VStr (s : string)
| VArr (items : list value)
| VObj (props : list (string * value)).

(** A thrown [Error] object: constructor name and [message]. *)
Record Error := mkError { name : string; message : string }.

Definition TypeError (msg : string) : Error := mkError "TypeError" msg.

(** Completion of an expression: [inl e] is [throw e]. *)
Definition exn (A : Type) : Type := (Error + A)%type.

Definition ret {A} (a : A) : exn A := inr a.
Definition throw {A} (e : Error) : exn A := inl e.
Definition bind {A B} (c : exn A) (k : A -> exn B) : exn B :=
  match c with
  | inl e => inl e
  | inr a => k a
  end.

Declare Scope js_scope.
Delimit Scope js_scope with js.
Notation "x <- c ;; k" := (bind c (fun x => k))
  (at level 61, c at next level, right associativity) : js_scope.

(** [ToBoolean]. *)
Definition truthy (v : value) : bool :=
  match v with
  | VUndefined | VNull => false
  | VBool b => b
  | VNum n => num_truthy n
  | VStr s => negb (String.eqb s EmptyString)
  | VArr _ | VObj _ => true
  end.

Fixpoint lookup (k : string) (props : list (string * value)) : option value :=
  match props with
  | [] => None
  | (k', v) :: rest => if String.eqb k k' then Some v else lookup k rest
  end.

(** A property name that is an array index: the canonical decimal form of
    a natural number. *)
Definition array_index (k : string) : option nat :=
  match NilEmpty.uint_of_string k with
  | Some u =>
      let n := Nat.of_uint u in
      if String.eqb (NilEmpty.string_of_uint (Nat.to_uint n)) k
      then Some n else None
  | None => None
  end.

Definition or_undefined (o : option value) : value :=
  match o with
  | Some v => v
  | None => VUndefined
  end.

Definition char_at (s : string) (i : nat) : option value :=
  match String.get i s with
  | Some c => Some (VStr (String c EmptyString))
  | None => None
  end.

(** The engine's message for a property read on [undefined] or [null]
    (V8's wording). *)
Definition cannot_read (base k : string) : string :=
  "Cannot read properties of " ++ base ++ " (reading '" ++ k ++ "')".

(** [undefined] and [null], and how the engine spells them. *)
Definition nullish (v : value) : bool :=
  match v with
  | VUndefined | VNull => true
  | _ => false
  end.

Definition spelled (v : value) : string :=
  match v with
  | VNull => "null"
  | _ => "undefined"
  end.

(** The read [v.k] / [v[k]].  Reading from [undefined] or [null] throws a
    [TypeError]; a primitive has no own named properties; a string and an
    array answer index reads; an object answers from its table.  The
    handler reads only [error], [message], [choices], [content] and the
    index [0]; none of them is inherited from a built-in prototype, so
    prototypes are left out ([length], [toString] and the like are not
    answered as the engine would). *)
Definition get (v : value) (k : string) : exn value :=
  match v with
  | VUndefined => throw (TypeError (cannot_read "undefined" k))
  | VNull => throw (TypeError (cannot_read "null" k))
  | VBool _ | VNum _ => ret VUndefined
  | VStr s =>
      ret (or_undefined (match array_index k with
                         | Some i => char_at s i
                         | None => None
                         end))
  | VArr items =>
      ret (or_undefined (match array_index k with
                         | Some i => nth_error items i
                         | None => None
                         end))
  | VObj props => ret (or_undefined (lookup k props))
  end.

Definition has_own (k : string) (props : list (string * value)) : bool :=
  match lookup k props with
  | Some _ => true
  | None => false
  end.

(** [ToString].  An array goes through [Array.prototype.join]: elements
    separated by a comma, [undefined] and [null] as the empty string.  A
    plain object answers ["[object Object]"] from [Object.prototype];
    when it carries an own [toString] entry (never callable in parsed
    JSON) the conversion finds no primitive and throws. *)
Fixpoint to_string (v : value) : exn string :=
  match v with
  | VUndefined => ret "undefined"
  | VNull => ret "null"
  | VBool true => ret "true"
  | VBool false => ret "false"
  | VNum n => ret (num_text n)
  | VStr s => ret s
  | VArr items =>
      let element (x : value) : exn string :=
        match x with
        | VUndefined | VNull => ret EmptyString
        | _ => to_string x
        end in
      (fix join (xs : list value) : exn string :=
         match xs with
         | [] => ret EmptyString
         | x :: rest =>
             match rest with
             | [] => element x
             | _ :: _ =>
                 match element x with
                 | inl e => inl e
                 | inr a =>
                     match join rest with
                     | inl e => inl e
                     | inr b => ret (a ++ "," ++ b)
                     end
                 end
             end
         end) items
  | VObj props =>
      if has_own "toString" props
      then throw (TypeError "Cannot convert object to primitive value")
      else ret "[object Object]"
  end.

(** The chain of reads [v.k1.k2...]: it stops at the first read that
    throws. *)
Fixpoint path (v : value) (ks : list string) : exn value :=
  match ks with
  | [] => ret v
  | k :: rest => (x <- get v k ;; path x rest)%js
  end.

(** [new Error(m)]: the message is [ToString m]. *)
Definition new_Error (m : value) : exn Error :=
  (s <- to_string m ;; ret (mkError "Error" s))%js.

(** [a || b]. *)
Definition or_else (a b : value) : value := if truthy a then a else b.

End Js.

(* ===================================================================== *)
(** ** The chat relay *)
(* ===================================================================== *)

Module Relay.
Import Js.
Local Open Scope js_scope.

(** *** [JSON.stringify] *)

Definition dquote : string := String (ascii_of_nat 34) EmptyString.

Definition hex_digit (n : nat) : ascii :=
  nth n (list_ascii_of_string "0123456789abcdef") "0"%char.

(** One character of [QuoteJSONString]: the short escapes, the quote and
    the backslash, [\u00xx] for the other control characters, and every
    other character as it is. *)
Definition escape_char (c : ascii) : string :=
  let n := nat_of_ascii c in
  if (n =? 8)%nat then "\b"
  else if (n =? 9)%nat then "\t"
  else if (n =? 10)%nat then "\n"
  else if (n =? 12)%nat then "\f"
  else if (n =? 13)%nat then "\r"
  else if (n =? 34)%nat then "\" ++ dquote
  else if (n =? 92)%nat then "\\"
  else if (n <? 32)%nat then
    "\u00" ++ String (hex_digit (n / 16)) (String (hex_digit (n mod 16)) EmptyString)
  else String c EmptyString.

Fixpoint escape (s : string) : string :=
  match s with
  | EmptyString => EmptyString
  | String c rest => escape_char c ++ escape rest
  end.

Definition quote (s : string) : string := dquote ++ escape s ++ dquote.

Definition finite (n : number) : bool :=
  negb (String.eqb (num_text n) "NaN"
        || String.eqb (num_text n) "Infinity"
        || String.eqb (num_text n) "-Infinity").

(** [JSON.stringify v]; [None] is [undefined].  An entry whose value
    serializes to [undefined] is dropped from an object and written as
    [null] in an array. *)
Fixpoint JSON_stringify (v : value) : option string :=
  match v with
  | VUndefined => None
  | VNull => Some "null"
  | VBool true => Some "true"
  | VBool false => Some "false"
  | VNum n => Some (if finite n then num_text n else "null")
  | VStr s => Some (quote s)
  | VArr items =>
      Some ("[" ++ String.concat ","
                     (map (fun x => match JSON_stringify x with
                                    | Some t => t
                                    | None => "null"
                                    end) items) ++ "]")
  | VObj props =>
      Some ("{" ++ String.concat ","
                     (flat_map (fun p => match JSON_stringify (snd p) with
                                         | Some t => [quote (fst p) ++ ":" ++ t]
                                         | None => []
                                         end) props) ++ "}")
  end.

(** *** The network *)

(** What is handed to [fetch]: the URL and the init object. *)
Record request := mkRequest {
  url : string;
  method : string;
  headers : list (string * string);
  body : option string
}.

(** What [fetch] resolves with.  The handler calls nothing on it but
    [json()], which either resolves with the parsed body or rejects (the
    body is not JSON). *)
Record response := mkResponse {
  status : Z;
  json : exn value
}.

Definition ok (r : response) : bool := ((200 <=? status r) && (status r <? 300))%Z.

(** The network: how the outside answers a request ([inl e]: the promise
    of [fetch] rejects with [e]), and the requests issued so far.
    [issued] lists what the program handed to [fetch], one entry per call;
    what the library then puts on the wire for it (a redirect followed,
    nothing at all for a request it refuses) is not recorded. *)
Record network := mkNetwork {
  respond : request -> exn response;
  issued : list request
}.

(** An [async] function body: it may issue requests and may throw. *)
Definition async (A : Type) : Type := network -> exn A * network.

Definition aret {A} (a : A) : async A := fun net => (inr a, net).
Definition athrow {A} (e : Error) : async A := fun net => (inl e, net).
Definition abind {A B} (c : async A) (k : A -> async B) : async B :=
  fun net =>
    match c net with
    | (inl e, net') => (inl e, net')
    | (inr a, net') => k a net'
    end.
(** [await p] for a promise that settles as [c], and the evaluation of a
    synchronous expression that completes as [c]. *)
Definition await {A} (c : exn A) : async A := fun net => (c, net).
Definition eval {A} (c : exn A) : async A := fun net => (c, net).

Declare Scope async_scope.
Delimit Scope async_scope with async.
Notation "x <~ c ;; k" := (abind c (fun x => k))
  (at level 61, c at next level, right associativity) : async_scope.
Notation "c ;;; k" := (abind c (fun _ => k))
  (at level 61, right associativity) : async_scope.
Local Open Scope async_scope.

(** [try { body } catch (error) { handler }]. *)
Definition try_catch {A} (body : async A) (handler : Error -> async A) : async A :=
  fun net =>
    match body net with
    | (inl e, net') => handler e net'
    | (inr a, net') => (inr a, net')
    end.

(** The network after [req] has been handed to [fetch]. *)
Definition after (net : network) (req : request) : network :=
  {| respond := respond net; issued := issued net ++ [req] |}.

Definition fetch (req : request) : async response :=
  fun net => (respond net req, after net req).

(** Modelled from the spec: node-fetch is not under src/.  A
    network-level failure (name not resolved, connection refused, time
    out) rejects the promise of [fetch] with an error that describes the
    failure; node-fetch words it around the cause the system reports. *)
Definition network_failure (req : request) (cause : string) : Error :=
  mkError "FetchError" ("request to " ++ url req ++ " failed, reason: " ++ cause).

(** A network that answers every request with [o]. *)
Definition answering (o : exn response) : network :=
  {| respond := fun _ => o; issued := [] |}.

(** The response with status [st] whose body parses to [data]. *)
Definition json_response (st : Z) (data : value) : response :=
  {| status := st; json := inr data |}.

(** *** The handler *)

(** The object the handler returns: [{success: true, message}] or
    [{success: false, error}]. *)
Inductive result :=
| Success (reply : value)
| Failure (error : string).

Definition endpoint : string := "https://openrouter.ai/api/v1/chat/completions".

Definition payload (message : string) : value :=
  VObj [("model", VStr "openai/gpt-3.5-turbo");
        ("messages", VArr [VObj [("role", VStr "user");
                                 ("content", VStr message)]])].

Definition chat_init (message apiKey : string) : request :=
  {| url := endpoint;
     method := "POST";
     headers := [("Authorization", "Bearer " ++ apiKey);
                 ("Content-Type", "application/json");
                 ("HTTP-Referer", "http://localhost");
                 ("X-Title", "Desktop AI Chatbot")];
     body := JSON_stringify (payload message) |}.

(** [ipcMain.handle('chat-request', async (event, message, apiKey) => ...)].
    The value is the promise's outcome: [inr r] resolved with [r],
    [inl e] rejected with [e]. *)
Definition chat_request (message apiKey : string) : async result :=
  try_catch
    (response <~ fetch (chat_init message apiKey) ;;
     data <~ await (json response) ;;
     err <~ eval (get data "error") ;;
     (if truthy err
      then m <~ eval (get err "message") ;;
           e <~ eval (new_Error (or_else m (VStr "API Error"))) ;;
           athrow e
      else aret tt) ;;;
     choices <~ eval (get data "choices") ;;
     first <~ eval (get choices "0") ;;
     msg <~ eval (get first "message") ;;
     content <~ eval (get msg "content") ;;
     aret (Success content))
    (fun error => aret (Failure (Js.message error))).

(** *** Reading the request back *)

Definition hex_value (c : ascii) : option nat :=
  let n := nat_of_ascii c in
  if (48 <=? n)%nat && (n <=? 57)%nat then Some (n - 48)
  else if (97 <=? n)%nat && (n <=? 102)%nat then Some (n - 87)
  else None.

Definition short_escape (e : ascii) : option ascii :=
  let n := nat_of_ascii e in
  if (n =? 98)%nat then Some (ascii_of_nat 8)
  else if (n =? 116)%nat then Some (ascii_of_nat 9)
  else if (n =? 110)%nat then Some (ascii_of_nat 10)
  else if (n =? 102)%nat then Some (ascii_of_nat 12)
  else if (n =? 114)%nat then Some (ascii_of_nat 13)
  else if (n =? 34)%nat then Some (ascii_of_nat 34)
  else if (n =? 92)%nat then Some (ascii_of_nat 92)
  else None.

Definition prepend (c : ascii) (o : option (string * string)) : option (string * string) :=
  match o with
  | Some (s, rest) => Some (String c s, rest)
  | None => None
  end.

(** The receiving side of [quote]: read the inside of a JSON string
    literal up to its closing quote; the answer is the string denoted and
    the text after the quote. *)
Fixpoint unquote (s : string) : option (string * string) :=
  match s with
  | EmptyString => None
  | String c r =>
      if (nat_of_ascii c =? 34)%nat then Some (EmptyString, r)
      else if (nat_of_ascii c =? 92)%nat then
        match r with
        | EmptyString => None
        | String e r1 =>
            if (nat_of_ascii e =? 117)%nat then
              match r1 with
              | String z1 (String z2 (String h (String l r2))) =>
                  match hex_value z1, hex_value z2, hex_value h, hex_value l with
                  | Some 0, Some 0, Some a, Some b =>
                      prepend (ascii_of_nat (16 * a + b)) (unquote r2)
                  | _, _, _, _ => None
                  end
              | _ => None
              end
            else
              match short_escape e with
              | Some d => prepend d (unquote r1)
              | None => None
              end
        end
      else prepend c (unquote r)
  end.

Fixpoint skip (n : nat) (s : string) : string :=
  match n, s with
  | S n', String _ r => skip n' r
  | _, _ => s
  end.

(** The text of the request body up to the user's words. *)
Definition body_prefix : string :=
  "{" ++ quote "model" ++ ":" ++ quote "openai/gpt-3.5-turbo" ++ ","
      ++ quote "messages" ++ ":[{" ++ quote "role" ++ ":" ++ quote "user" ++ ","
      ++ quote "content" ++ ":" ++ dquote.

(** The content of the user message in a request body. *)
Definition user_content (b : string) : option string :=
  match unquote (skip (String.length body_prefix) b) with
  | Some (m, _) => Some m
  | None => None
  end.

(** The reply path of a successful body. *)
Definition reply_path : list string := ["choices"; "0"; "message"; "content"].

(** What the handler makes of a parsed body, read off the handler: the
    answer as a function of [data] alone ([chat_request_parsed] below
    proves that the handler computes it). *)
Definition settle (data : value) : result :=
  match get data "error" with
  | inl e => Failure (Js.message e)
  | inr err =>
      if truthy err then
        match bind (get err "message")
                   (fun m => new_Error (or_else m (VStr "API Error"))) with
        | inl e | inr e => Failure (Js.message e)
        end
      else
        match path data reply_path with
        | inl e => Failure (Js.message e)
        | inr content => Success content
        end
  end.

End Relay.

(* ===================================================================== *)
(** ** The window controller *)
(* ===================================================================== *)

Module Controller.
Import Js Relay.

(** *** The host: Electron's window and life cycle *)

(** The [BrowserWindow], as far as the handlers use it: whether it is
    shown ([isVisible()]), whether it has input focus, and whether it is
    minimized.  [minimize()] leaves the shown/hidden fact to the windowing
    system; keeping it unchanged, as [minimize] below does, is a choice of
    this model and no property of the program. *)
Record BrowserWindow := mkWindow {
  visible : bool;
  focused : bool;
  minimized : bool
}.

Definition isVisible (w : BrowserWindow) : bool := visible w.

Definition hide (w : BrowserWindow) : BrowserWindow :=
  {| visible := false; focused := false; minimized := minimized w |}.

Definition show (w : BrowserWindow) : BrowserWindow :=
  {| visible := true; focused := true; minimized := minimized w |}.

Definition focus (w : BrowserWindow) : BrowserWindow :=
  {| visible := visible w; focused := true; minimized := minimized w |}.

Definition minimize (w : BrowserWindow) : BrowserWindow :=
  {| visible := visible w; focused := false; minimized := true |}.

(** The main process.  [isQuitting] is the property the program puts on
    [app]; [quitting] is Electron's own record that a quit sequence is
    under way; [windowOpen] is false once the window has been destroyed;
    [shortcuts] are the accelerators this process holds; [running] is
    false once the process has exited. *)
Record app := mkApp {
  mainWindow : BrowserWindow;
  windowOpen : bool;
  isQuitting : bool;
  quitting : bool;
  shortcuts : list string;
  console : list string;
  running : bool
}.

Definition with_window (f : BrowserWindow -> BrowserWindow) (st : app) : app :=
  {| mainWindow := f (mainWindow st);
     windowOpen := windowOpen st;
     isQuitting := isQuitting st;
     quitting := quitting st;
     shortcuts := shortcuts st;
     console := console st;
     running := running st |}.

Definition set_quitting (b : bool) (st : app) : app :=
  {| mainWindow := mainWindow st;
     windowOpen := windowOpen st;
     isQuitting := isQuitting st;
     quitting := b;
     shortcuts := shortcuts st;
     console := console st;
     running := running st |}.

Definition destroy_window (st : app) : app :=
  {| mainWindow := mainWindow st;
     windowOpen := false;
     isQuitting := isQuitting st;
     quitting := quitting st;
     shortcuts := shortcuts st;
     console := console st;
     running := running st |}.

Definition exit (st : app) : app :=
  {| mainWindow := mainWindow st;
     windowOpen := windowOpen st;
     isQuitting := isQuitting st;
     quitting := quitting st;
     shortcuts := shortcuts st;
     console := console st;
     running := false |}.

(** *** The program *)

Definition accelerator : string := "CommandOrControl+Space".

(** [new BrowserWindow({...})]: shown and focused when created. *)
Definition createWindow : BrowserWindow :=
  {| visible := true; focused := true; minimized := false |}.

(** [mainWindow.on('close', ...)]: the boolean is [defaultPrevented]. *)
Definition on_close (st : app) : bool * app :=
  if negb (isQuitting st)
  then (true, with_window hide st)
  else (false, st).

(** The callback given to [globalShortcut.register]. *)
Definition toggle (st : app) : app :=
  if isVisible (mainWindow st)
  then with_window hide st
  else with_window focus (with_window show st).

(** [app.whenReady().then(...)]: [ret] is what [globalShortcut.register]
    answers, false when the system refuses the combination. *)
Definition ready (ret : bool) : app :=
  {| mainWindow := createWindow;
     windowOpen := true;
     isQuitting := false;
     quitting := false;
     shortcuts := if ret then [accelerator] else [];
     console := if negb ret then ["Registration failed"] else [];
     running := true |}.

(** [ipcMain.on('minimize-window', ...)]. *)
Definition minimize_window (st : app) : app := with_window minimize st.

(** [ipcMain.on('close-window', ...)]. *)
Definition close_window (st : app) : app := with_window hide st.

(** [app.on('before-quit', ...)]. *)
Definition before_quit (st : app) : app :=
  {| mainWindow := mainWindow st;
     windowOpen := windowOpen st;
     isQuitting := true;
     quitting := quitting st;
     shortcuts := shortcuts st;
     console := console st;
     running := running st |}.

(** [app.on('will-quit', ...)]: [globalShortcut.unregisterAll()]. *)
Definition will_quit (st : app) : app :=
  {| mainWindow := mainWindow st;
     windowOpen := windowOpen st;
     isQuitting := isQuitting st;
     quitting := quitting st;
     shortcuts := [];
     console := console st;
     running := running st |}.

(** *** Electron's quit sequence *)

(** ['will-quit'] is emitted and the process exits. *)
Definition shutdown (st : app) : app := exit (will_quit st).

(** [app.quit()]: ['before-quit'] is emitted first; then the windows are
    asked to close, and with none left the process shuts down.  The close
    request of an open window arrives as an event of its own. *)
Definition app_quit (st : app) : app :=
  let st1 := before_quit (set_quitting true st) in
  if windowOpen st1 then st1 else shutdown st1.

(** [app.on('window-all-closed', ...)]. *)
Definition window_all_closed (platform : string) (st : app) : app :=
  if negb (String.eqb platform "darwin") then app_quit st else st.

(** The window is asked to close (title bar, system menu, or the quit
    sequence).  The ['close'] listener runs; when it prevents the default
    the window stays and a quit under way is called off; otherwise the
    window is destroyed, and with no window left Electron finishes the
    quit when one is under way and emits ['window-all-closed'] when not. *)
Definition requestClose (platform : string) (st : app) : app :=
  let (prevented, st1) := on_close st in
  if prevented then set_quitting false st1
  else
    let st2 := destroy_window st1 in
    if quitting st2 then shutdown st2
    else window_all_closed platform st2.

(** The quit intent is only ever set together with Electron's own record
    of the quit sequence. *)
Definition quit_intent_tracks_quit (st : app) : Prop :=
  isQuitting st = true -> quitting st = true.

(** Two states of the process that differ at most in the shortcuts held
    and in what was written to the console. *)
Definition same_but_hotkey (a b : app) : Prop :=
  mainWindow a = mainWindow b
  /\ windowOpen a = windowOpen b
  /\ isQuitting a = isQuitting b
  /\ quitting a = quitting b
  /\ running a = running b.

End Controller.

(* ===================================================================== *)
(** ** The bridge and the event loop *)
(* ===================================================================== *)

Module Bridge.
Import Js Relay Controller.

(** A message from the display process: [ipcRenderer.send(channel)] or
    [ipcRenderer.invoke(channel, message, apiKey)]. *)
Inductive ipc :=
| Send (channel : string)
| Invoke (channel : string) (message apiKey : string).

(** The three functions the preload script exposes as [electronAPI]. *)
Definition minimizeWindow : ipc := Send "minimize-window".
Definition closeWindow : ipc := Send "close-window".
Definition sendChat (message apiKey : string) : ipc :=
  Invoke "chat-request" message apiKey.

(** The listeners registered with [ipcMain.on]. *)
Definition ipcMain_on (channel : string) (st : app) : app :=
  if String.eqb channel "minimize-window" then minimize_window st
  else if String.eqb channel "close-window" then close_window st
  else st.

(** The handlers registered with [ipcMain.handle]; an invoke on a channel
    without one is rejected by Electron. *)
Definition ipcMain_handle (channel message apiKey : string) : async result :=
  if String.eqb channel "chat-request" then chat_request message apiKey
  else athrow (mkError "Error" ("No handler registered for '" ++ channel ++ "'")).

(** What can happen to the running process. *)
Inductive event :=
| ShortcutPressed
| FromRenderer (m : ipc)
| CloseRequested
| QuitRequested.

(** The process, the network it talks to, and the outcomes of the invokes
    answered so far (most recent last). *)
Record world := mkWorld {
  main : app;
  net : network;
  replies : list (exn result)
}.

Definition on_main (f : app -> app) (w : world) : world :=
  {| main := f (main w); net := net w; replies := replies w |}.

(** One turn of the event loop.  Nothing is delivered to a process that
    has exited; the shortcut is delivered when the process holds it; the
    renderer and the close request exist while the window does.  An
    invoke is run to its reply within the turn: invokes that overlap in
    time are not modelled, so the order within [replies] is the order of
    the calls and not that of the answers. *)
Definition step (platform : string) (w : world) (ev : event) : world :=
  if negb (running (main w)) then w
  else
    match ev with
    | ShortcutPressed =>
        if existsb (String.eqb accelerator) (shortcuts (main w)) && windowOpen (main w)
        then on_main toggle w else w
    | FromRenderer m =>
        if windowOpen (main w) then
          match m with
          | Send channel => on_main (ipcMain_on channel) w
          | Invoke channel message apiKey =>
              let (out, net') := ipcMain_handle channel message apiKey (net w) in
              {| main := main w; net := net'; replies := replies w ++ [out] |}
          end
        else w
    | CloseRequested =>
        if windowOpen (main w) then on_main (requestClose platform) w else w
    | QuitRequested => on_main app_quit w
    end.

Definition run (platform : string) (w : world) (evs : list event) : world :=
  fold_left (step platform) evs w.

(** The world once the app is ready. *)
Definition boot (ret : bool) (n : network) : world :=
  {| main := ready ret; net := n; replies := [] |}.

(** Two worlds alike in everything but the hotkey. *)
Definition alike (w1 w2 : world) : Prop :=
  same_but_hotkey (main w1) (main w2)
  /\ net w1 = net w2
  /\ replies w1 = replies w2.

(** What holds of the process at every point of a run: the quit intent
    is set only during a quit sequence, the window exists exactly as long
    as the process runs, and a process that has exited holds no
    shortcut. *)
Definition settled (st : app) : Prop :=
  quit_intent_tracks_quit st
  /\ windowOpen st = running st
  /\ (running st = false -> shortcuts st = []).

(** The display process asking for a chat: [c] is (message, credential). *)
Definition chat_call (c : string * string) : event :=
  FromRenderer (sendChat (fst c) (snd c)).

(** A request as the handler makes them: a POST to the fixed endpoint. *)
Definition to_endpoint (r : request) : Prop :=
  url r = endpoint /\ method r = "POST".

End Bridge.

(* ===================================================================== *)
(** ** Sample exchanges *)
(* ===================================================================== *)

Module Samples.
Import Js Relay.

(** A completion body whose first choice carries [content]. *)
Definition completion (content : string) : value :=
  VObj [("id", VStr "gen-1");
        ("choices",
         VArr [VObj [("index", VNum (mkNumber false "0"));
                     ("message", VObj [("role", VStr "assistant");
                                       ("content", VStr content)])]])].

(** A body with an [error] object carrying [msg]. *)
Definition error_body (msg : string) : value :=
  VObj [("error", VObj [("message", VStr msg);
                        ("code", VNum (mkNumber true "401"))])].

(** An [error] object without a message. *)
Definition bare_error_body : value :=
  VObj [("error", VObj [("code", VNum (mkNumber true "500"))])].

(** A first choice whose message has no [content]. *)
Definition contentless : value :=
  VObj [("choices", VArr [VObj [("message", VObj [("role", VStr "assistant")])]])].

(** Bodies that lack the reply path at each of its three joints. *)
Definition no_choices : value := VObj [("id", VStr "gen-1")].
Definition empty_choices : value := VObj [("choices", VArr [])].
Definition no_message : value :=
  VObj [("choices", VArr [VObj [("index", VNum (mkNumber false "0"))]])].

(** What node-fetch rejects with when the connection is refused. *)
Definition connection_refused : Error :=
  mkError "FetchError"
    ("request to " ++ endpoint ++ " failed, reason: connect ECONNREFUSED").

End Samples.

(* ===================================================================== *)
(** ** Properties of the chat relay *)
(* ===================================================================== *)

Import Js Relay Controller Bridge Samples.

(** The handler step by step: the fetch was rejected. *)
Lemma chat_request_rejected message apiKey net e :
  respond net (chat_init message apiKey) = inl e ->
  chat_request message apiKey net
  = (inr (Failure (Js.message e)), after net (chat_init message apiKey)).
Proof.
  intros H. unfold chat_request, try_catch, abind, fetch. rewrite H. reflexivity.
Qed.

(** The body could not be parsed. *)
Lemma chat_request_unparsed message apiKey net resp e :
  respond net (chat_init message apiKey) = inr resp ->
  json resp = inl e ->
  chat_request message apiKey net
  = (inr (Failure (Js.message e)), after net (chat_init message apiKey)).
Proof.
  intros H J. unfold chat_request, try_catch, abind, fetch, await, eval.
  rewrite H, J. reflexivity.
Qed.

Lemma chat_request_parsed message apiKey net resp data :
  respond net (chat_init message apiKey) = inr resp ->
  json resp = inr data ->
  chat_request message apiKey net
  = (inr (settle data), after net (chat_init message apiKey)).
Proof.
  intros H J. unfold chat_request, try_catch, abind, fetch, await, eval, settle.
  rewrite H, J. unfold reply_path, path, bind, aret, athrow, ret.
  destruct (get data "error") as [e|err]; [reflexivity|].
  destruct (truthy err).
  - destruct (get err "message") as [e|m]; [reflexivity|].
    destruct (new_Error _) as [e|e]; reflexivity.
  - destruct (get data "choices") as [e|c]; [reflexivity|].
    destruct (get c "0") as [e|f]; [reflexivity|].
    destruct (get f "message") as [e|mm]; [reflexivity|].
    destruct (get mm "content") as [e|content]; reflexivity.
Qed.

(** Every parsed body settles into a result object. *)
Lemma settle_truthy_error data err :
  get data "error" = inr err -> truthy err = true ->
  exists s, settle data = Failure s.
Proof.
  intros G T. unfold settle. rewrite G, T.
  destruct (bind _ _) as [e|e]; eauto.
Qed.

Lemma settle_falsy_error data err :
  get data "error" = inr err -> truthy err = false ->
  settle data = match path data reply_path with
                | inl e => Failure (Js.message e)
                | inr content => Success content
                end.
Proof. intros G T. unfold settle. rewrite G, T. reflexivity. Qed.

Lemma settle_path_throws data e :
  path data reply_path = inl e -> exists s, settle data = Failure s.
Proof.
  intros P. unfold settle.
  destruct (get data "error") as [e'|err]; [eauto|].
  destruct (truthy err).
  - destruct (bind _ _) as [x|x]; eauto.
  - rewrite P. eauto.
Qed.

(** The handler always resolves. *)
Lemma chat_request_resolves message apiKey net :
  exists r,
    chat_request message apiKey net = (inr r, after net (chat_init message apiKey)).
Proof.
  destruct (respond net (chat_init message apiKey)) as [e|resp] eqn:R.
  - eexists. apply chat_request_rejected. exact R.
  - destruct (json resp) as [e|data] eqn:J.
    + eexists. eapply chat_request_unparsed; eauto.
    + eexists. eapply chat_request_parsed; eauto.
Qed.

(** C4: a well-formed body without an error field that carries a string
    at [choices[0].message.content] is answered with
    [{success: true, message}] where [message] is exactly that string,
    whatever the status of the response.  The instance with content
    ["Hello!"] is the witness below. *)
Theorem success_reply_is_content message apiKey net resp data err s :
  respond net (chat_init message apiKey) = inr resp ->
  json resp = inr data ->
  get data "error" = inr err ->
  truthy err = false ->
  path data reply_path = inr (VStr s) ->
  fst (chat_request message apiKey net) = inr (Success (VStr s)).
Proof.
  intros R J G T P.
  rewrite (chat_request_parsed _ _ _ _ _ R J). simpl fst.
  rewrite (settle_falsy_error _ _ G T), P. reflexivity.
Qed.

Lemma success_reply_hello :
  fst (chat_request "Hi" "sk-or-1"
         (answering (inr (json_response 200 (completion "Hello!")))))
  = inr (Success (VStr "Hello!")).
Proof.
  apply (success_reply_is_content "Hi" "sk-or-1" _
           (json_response 200 (completion "Hello!")) (completion "Hello!")
           VUndefined "Hello!"); reflexivity.
Defined.

(** C10: when the body has no error field and [choices[0].message] is an
    object, the handler answers [{success: true, message}] with whatever
    the object holds under [content]; with no such entry the reply text is
    [undefined], and the answer is still a success. *)
Theorem success_even_without_content message apiKey net resp data err props :
  respond net (chat_init message apiKey) = inr resp ->
  json resp = inr data ->
  get data "error" = inr err ->
  truthy err = false ->
  path data ["choices"; "0"; "message"] = inr (VObj props) ->
  fst (chat_request message apiKey net)
  = inr (Success (or_undefined (lookup "content" props)))
  /\ (lookup "content" props = None ->
      fst (chat_request message apiKey net) = inr (Success VUndefined)).
Proof.
  intros R J G T P.
  assert (E : fst (chat_request message apiKey net)
              = inr (Success (or_undefined (lookup "content" props)))).
  { rewrite (chat_request_parsed _ _ _ _ _ R J). simpl fst.
    rewrite (settle_falsy_error _ _ G T).
    unfold reply_path. simpl in P |- *.
    destruct (get data "choices") as [e|c]; [discriminate|]. simpl in P |- *.
    destruct (get c "0") as [e|f]; [discriminate|]. simpl in P |- *.
    destruct (get f "message") as [e|mm]; [discriminate|]. simpl in P |- *.
    injection P as ->. reflexivity. }
  split; [exact E|]. intros L. rewrite E, L. reflexivity.
Qed.

Lemma success_without_content_sample :
  fst (chat_request "Hi" "sk-or-1" (answering (inr (json_response 200 contentless))))
  = inr (Success VUndefined).
Proof.
  apply (proj2 (success_even_without_content "Hi" "sk-or-1"
                  (answering (inr (json_response 200 contentless)))
                  (json_response 200 contentless) contentless VUndefined
                  [("role", VStr "assistant")]
                  eq_refl eq_refl eq_refl eq_refl eq_refl)).
  reflexivity.
Defined.

Lemma get_nullish base k :
  nullish base = true ->
  get base k = inl (TypeError (cannot_read (spelled base) k)).
Proof. destruct base; simpl; intros H; try discriminate; reflexivity. Qed.

Lemma path_app data pre post :
  path data (pre ++ post) = bind (path data pre) (fun x => path x post).
Proof.
  revert data. induction pre as [|k pre IH]; intros data; simpl.
  - reflexivity.
  - destruct (get data k) as [e|x]; simpl; [reflexivity|apply IH].
Qed.

(** C5, as the handler has it: the status of the response is never
    looked at.  For every response, of any status, whose body carries a
    truthy [error] field, the handler answers [{success: false, error}];
    [error] is the upstream [error.message] when that is a non-empty
    string, and ["API Error"] when [error.message] is absent or otherwise
    falsy. *)
Theorem error_object_is_failure message apiKey net resp data err :
  respond net (chat_init message apiKey) = inr resp ->
  json resp = inr data ->
  get data "error" = inr err ->
  truthy err = true ->
  (forall s, get err "message" = inr (VStr s) -> s <> EmptyString ->
     fst (chat_request message apiKey net) = inr (Failure s))
  /\ (forall m, get err "message" = inr m -> truthy m = false ->
     fst (chat_request message apiKey net) = inr (Failure "API Error")).
Proof.
  intros R J G T.
  rewrite (chat_request_parsed _ _ _ _ _ R J). simpl fst.
  unfold settle. rewrite G, T. split.
  - intros s M Hs. rewrite M. simpl. unfold or_else. simpl.
    destruct (String.eqb_spec s EmptyString) as [->|_]; [contradiction|reflexivity].
  - intros m M F. rewrite M. simpl. unfold or_else. rewrite F. reflexivity.
Qed.

Lemma error_object_invalid_key :
  fst (chat_request "Hi" "sk-or-bad"
         (answering (inr (json_response 401 (error_body "Invalid API key")))))
  = inr (Failure "Invalid API key")
  /\ fst (chat_request "Hi" "sk-or-bad"
            (answering (inr (json_response 500 bare_error_body))))
     = inr (Failure "API Error").
Proof.
  split.
  - apply (proj1 (error_object_is_failure "Hi" "sk-or-bad"
                    (answering (inr (json_response 401 (error_body "Invalid API key"))))
                    (json_response 401 (error_body "Invalid API key"))
                    (error_body "Invalid API key")
                    (VObj [("message", VStr "Invalid API key");
                           ("code", VNum (mkNumber true "401"))])
                    eq_refl eq_refl eq_refl eq_refl)).
    + reflexivity.
    + discriminate.
  - apply (proj2 (error_object_is_failure "Hi" "sk-or-bad"
                    (answering (inr (json_response 500 bare_error_body)))
                    (json_response 500 bare_error_body)
                    bare_error_body
                    (VObj [("code", VNum (mkNumber true "500"))])
                    eq_refl eq_refl eq_refl eq_refl) VUndefined); reflexivity.
Defined.

(** C5 as stated fails: a response with status 503 is not a 2xx, yet its
    body is a completion and the handler answers success. *)
Lemma non_2xx_answered_as_success :
  ok (json_response 503 (completion "hi")) = false
  /\ fst (chat_request "Hi" "sk-or-1"
            (answering (inr (json_response 503 (completion "hi")))))
     = inr (Success (VStr "hi")).
Proof. split; reflexivity. Qed.

(** C6, as the handler has it: for every body without a truthy [error]
    field whose reply path [choices[0].message.content] runs into
    [undefined] or [null] before its last read ([choices] absent, no
    first choice, or no [message] under it), the handler answers
    [{success: false, error}] with the engine's message for that read. *)
Theorem missing_joint_is_failure message apiKey net resp data err pre k post base :
  respond net (chat_init message apiKey) = inr resp ->
  json resp = inr data ->
  get data "error" = inr err ->
  truthy err = false ->
  reply_path = (pre ++ k :: post)%list ->
  path data pre = inr base ->
  nullish base = true ->
  fst (chat_request message apiKey net)
  = inr (Failure (cannot_read (spelled base) k)).
Proof.
  intros R J G T S P N.
  rewrite (chat_request_parsed _ _ _ _ _ R J). simpl fst.
  rewrite (settle_falsy_error _ _ G T), S, path_app, P. simpl.
  rewrite (get_nullish _ _ N). reflexivity.
Qed.

Lemma missing_joint_samples :
  fst (chat_request "Hi" "sk-or-1" (answering (inr (json_response 200 no_choices))))
  = inr (Failure "Cannot read properties of undefined (reading '0')")
  /\ fst (chat_request "Hi" "sk-or-1" (answering (inr (json_response 200 empty_choices))))
     = inr (Failure "Cannot read properties of undefined (reading 'message')")
  /\ fst (chat_request "Hi" "sk-or-1" (answering (inr (json_response 200 no_message))))
     = inr (Failure "Cannot read properties of undefined (reading 'content')").
Proof.
  split; [|split].
  - apply (missing_joint_is_failure "Hi" "sk-or-1"
             (answering (inr (json_response 200 no_choices)))
             (json_response 200 no_choices) no_choices VUndefined
             ["choices"] "0" ["message"; "content"] VUndefined); reflexivity.
  - apply (missing_joint_is_failure "Hi" "sk-or-1"
             (answering (inr (json_response 200 empty_choices)))
             (json_response 200 empty_choices) empty_choices VUndefined
             ["choices"; "0"] "message" ["content"] VUndefined); reflexivity.
  - apply (missing_joint_is_failure "Hi" "sk-or-1"
             (answering (inr (json_response 200 no_message)))
             (json_response 200 no_message) no_message VUndefined
             ["choices"; "0"; "message"] "content" [] VUndefined); reflexivity.
Defined.

(** C6 as stated fails: with a message object that has no [content] the
    last read yields [undefined] without throwing, and the handler
    answers success. *)
Lemma contentless_answered_as_success :
  path contentless reply_path = inr VUndefined
  /\ fst (chat_request "Hi" "sk-or-1"
            (answering (inr (json_response 200 contentless))))
     = inr (Success VUndefined).
Proof. split; reflexivity. Qed.

(** C1, as the handler has it: for every message, credential and
    outcome of the exchange the promise of the handler resolves with a
    result object and never rejects.  The result is
    [{success: false, error}] when [fetch] rejects, when the body does
    not parse, when the body carries a truthy [error] field, and when a
    read on the reply path throws; the status of the response plays no
    part.  For a network-level failure [error] is a non-empty string. *)
Theorem chat_request_never_rejects message apiKey net :
  (exists r, fst (chat_request message apiKey net) = inr r)
  /\ (forall e, respond net (chat_init message apiKey) = inl e ->
        fst (chat_request message apiKey net) = inr (Failure (Js.message e)))
  /\ (forall cause,
        respond net (chat_init message apiKey)
        = inl (network_failure (chat_init message apiKey) cause) ->
        exists s, fst (chat_request message apiKey net) = inr (Failure s)
                  /\ s <> EmptyString)
  /\ (forall resp e, respond net (chat_init message apiKey) = inr resp ->
        json resp = inl e ->
        fst (chat_request message apiKey net) = inr (Failure (Js.message e)))
  /\ (forall resp data err, respond net (chat_init message apiKey) = inr resp ->
        json resp = inr data ->
        get data "error" = inr err -> truthy err = true ->
        exists s, fst (chat_request message apiKey net) = inr (Failure s))
  /\ (forall resp data e, respond net (chat_init message apiKey) = inr resp ->
        json resp = inr data ->
        path data reply_path = inl e ->
        exists s, fst (chat_request message apiKey net) = inr (Failure s)).
Proof.
  split; [|split; [|split; [|split; [|split]]]].
  - destruct (chat_request_resolves message apiKey net) as [r E].
    exists r. rewrite E. reflexivity.
  - intros e H. rewrite (chat_request_rejected _ _ _ _ H). reflexivity.
  - intros cause H. rewrite (chat_request_rejected _ _ _ _ H).
    eexists. split; [reflexivity|]. simpl. discriminate.
  - intros resp e R J. rewrite (chat_request_unparsed _ _ _ _ _ R J). reflexivity.
  - intros resp data err R J G T.
    rewrite (chat_request_parsed _ _ _ _ _ R J). simpl fst.
    destruct (settle_truthy_error _ _ G T) as [s E]. exists s. rewrite E. reflexivity.
  - intros resp data e R J P.
    rewrite (chat_request_parsed _ _ _ _ _ R J). simpl fst.
    destruct (settle_path_throws _ _ P) as [s E]. exists s. rewrite E. reflexivity.
Qed.

Lemma connection_refused_is_failure :
  exists s,
    fst (chat_request "Hi" "sk-or-1" (answering (inl connection_refused)))
    = inr (Failure s)
    /\ s <> EmptyString.
Proof.
  apply (proj1 (proj2 (proj2 (chat_request_never_rejects "Hi" "sk-or-1"
                                (answering (inl connection_refused)))))
           "connect ECONNREFUSED").
  reflexivity.
Defined.

(** C1 as stated fails on two of the outcomes it lists: a response with
    status 500 whose body is a completion, and a body whose message lacks
    [content], are both answered with [{success: true, ...}]. *)
Lemma listed_outcomes_answered_as_success :
  (ok (json_response 500 (completion "hi")) = false
   /\ fst (chat_request "Hi" "sk-or-1"
             (answering (inr (json_response 500 (completion "hi")))))
      = inr (Success (VStr "hi")))
  /\ (lookup "content" [("role", VStr "assistant")] = None
      /\ fst (chat_request "Hi" "sk-or-1"
                (answering (inr (json_response 200 contentless))))
         = inr (Success VUndefined)).
Proof. split; split; reflexivity. Qed.

(* ===================================================================== *)
(** ** Properties of the window controller *)
(* ===================================================================== *)

Lemma toggle_flips st :
  isVisible (mainWindow (toggle st)) = negb (isVisible (mainWindow st)).
Proof.
  unfold toggle. destruct (isVisible (mainWindow st)) eqn:V; reflexivity.
Qed.

Lemma toggle_iter n st :
  isVisible (mainWindow (Nat.iter n toggle st))
  = xorb (Nat.odd n) (isVisible (mainWindow st)).
Proof.
  induction n as [|n IH].
  - reflexivity.
  - change (Nat.iter (S n) toggle st) with (toggle (Nat.iter n toggle st)).
    rewrite toggle_flips, IH, Nat.odd_succ, <- Nat.negb_odd.
    destruct (Nat.odd n), (isVisible (mainWindow st)); reflexivity.
Qed.

(** C2: pressing the hotkey [n] times on a hidden window leaves it
    visible when [n] is odd and hidden when [n] is even; two presses give
    back the visibility they started from. *)
Theorem toggle_parity n st :
  isVisible (mainWindow st) = false ->
  isVisible (mainWindow (Nat.iter n toggle st)) = Nat.odd n
  /\ isVisible (mainWindow (toggle (toggle st))) = isVisible (mainWindow st).
Proof.
  intros H. split.
  - rewrite toggle_iter, H. apply xorb_false_r.
  - rewrite !toggle_flips. apply negb_involutive.
Qed.

Lemma toggle_parity_three :
  isVisible (mainWindow (Nat.iter 3 toggle (close_window (ready true)))) = true
  /\ isVisible (mainWindow (Nat.iter 4 toggle (close_window (ready true)))) = false.
Proof.
  split.
  - apply (proj1 (toggle_parity 3 (close_window (ready true)) eq_refl)).
  - apply (proj1 (toggle_parity 4 (close_window (ready true)) eq_refl)).
Defined.

Lemma requestClose_unset platform st :
  isQuitting st = false ->
  requestClose platform st = set_quitting false (with_window hide st).
Proof. intros H. unfold requestClose, on_close. rewrite H. reflexivity. Qed.

Lemma requestClose_set platform st :
  isQuitting st = true -> quitting st = true ->
  requestClose platform st = shutdown (destroy_window st).
Proof.
  intros H Q. unfold requestClose, on_close. rewrite H. simpl. rewrite Q. reflexivity.
Qed.

Lemma step_keeps_tracking platform w ev :
  quit_intent_tracks_quit (main w) ->
  quit_intent_tracks_quit (main (step platform w ev)).
Proof.
  unfold quit_intent_tracks_quit, step. intros I.
  destruct (running (main w)); simpl; [|exact I].
  destruct ev as [|m| |].
  - destruct (_ && _); simpl; [|exact I].
    unfold toggle. destruct (isVisible _); exact I.
  - destruct (windowOpen (main w)); [|exact I].
    destruct m as [channel|channel message apiKey]; simpl.
    + unfold ipcMain_on.
      destruct (String.eqb channel "minimize-window"); [exact I|].
      destruct (String.eqb channel "close-window"); exact I.
    + destruct (ipcMain_handle _ _ _ _). exact I.
  - destruct (windowOpen (main w)); [|exact I]. simpl.
    unfold requestClose, on_close.
    destruct (isQuitting (main w)) eqn:Q; simpl.
    + rewrite (I eq_refl). simpl. intros _. apply I. reflexivity.
    + rewrite Q. discriminate.
  - simpl. unfold app_quit. simpl.
    destruct (windowOpen (main w)); reflexivity.
Qed.

Lemma run_keeps_tracking platform evs w :
  quit_intent_tracks_quit (main w) ->
  quit_intent_tracks_quit (main (run platform w evs)).
Proof.
  revert w. induction evs as [|ev evs IH]; intros w I; simpl.
  - exact I.
  - apply IH, step_keeps_tracking, I.
Qed.

(** C3: while [app.isQuitting] is unset a close request hides the window
    and the process goes on; in every state the running program can
    reach with [app.isQuitting] set, the close request goes through (the
    window is destroyed) and the process exits. *)
Theorem requestClose_hides_or_exits platform :
  (forall st, isQuitting st = false ->
     isVisible (mainWindow (requestClose platform st)) = false
     /\ windowOpen (requestClose platform st) = windowOpen st
     /\ running (requestClose platform st) = running st)
  /\ (forall ret n evs,
        let st := main (run platform (boot ret n) evs) in
        isQuitting st = true ->
        windowOpen (requestClose platform st) = false
        /\ running (requestClose platform st) = false).
Proof.
  split.
  - intros st H. rewrite (requestClose_unset _ _ H). repeat split.
  - intros ret n evs st H.
    assert (Q : quitting st = true).
    { apply (run_keeps_tracking platform evs (boot ret n)); [|exact H].
      intros F. discriminate F. }
    rewrite (requestClose_set _ _ H Q). split; reflexivity.
Qed.

Lemma requestClose_sample :
  (isVisible (mainWindow (requestClose "win32" (ready true))) = false
   /\ windowOpen (requestClose "win32" (ready true)) = true
   /\ running (requestClose "win32" (ready true)) = true)
  /\ (windowOpen (requestClose "darwin"
                    (main (run "darwin" (boot true (answering (inl connection_refused)))
                               [QuitRequested]))) = false
      /\ running (requestClose "darwin"
                    (main (run "darwin" (boot true (answering (inl connection_refused)))
                               [QuitRequested]))) = false).
Proof.
  split.
  - apply (proj1 (requestClose_hides_or_exits "win32") (ready true)). reflexivity.
  - apply (proj2 (requestClose_hides_or_exits "darwin") true
             (answering (inl connection_refused)) [QuitRequested]).
    reflexivity.
Defined.

(** C9: the [close-window] command hides the window in every state, and
    leaves the process, the window object and the quit intent as they
    were; it does so too once ['before-quit'] has set the quit intent,
    where a close request on the window would end the process. *)
Theorem close_window_command_hides st :
  (isVisible (mainWindow (ipcMain_on "close-window" st)) = false
   /\ running (ipcMain_on "close-window" st) = running st
   /\ windowOpen (ipcMain_on "close-window" st) = windowOpen st
   /\ isQuitting (ipcMain_on "close-window" st) = isQuitting st)
  /\ (isVisible (mainWindow (ipcMain_on "close-window" (before_quit st))) = false
      /\ running (ipcMain_on "close-window" (before_quit st)) = running st
      /\ windowOpen (ipcMain_on "close-window" (before_quit st)) = windowOpen st)
  /\ ipcMain_on "close-window" st = close_window st.
Proof. repeat split. Qed.

Lemma step_alike platform w1 w2 ev :
  ev <> ShortcutPressed ->
  alike w1 w2 -> alike (step platform w1 ev) (step platform w2 ev).
Proof.
  intros NS.
  destruct w1 as [[mw1 wo1 iq1 q1 sc1 co1 r1] n1 rp1].
  destruct w2 as [[mw2 wo2 iq2 q2 sc2 co2 r2] n2 rp2].
  unfold alike, same_but_hotkey. simpl.
  intros [(-> & -> & -> & -> & ->) [-> ->]].
  unfold step. simpl. destruct r2; simpl; [|repeat split].
  destruct ev as [|m| |]; [contradiction| | |].
  - destruct wo2; simpl; [|repeat split].
    destruct m as [channel|channel message apiKey]; simpl.
    + unfold ipcMain_on.
      destruct (String.eqb channel "minimize-window"); [repeat split|].
      destruct (String.eqb channel "close-window"); repeat split.
    + destruct (ipcMain_handle channel message apiKey n2). simpl. repeat split.
  - destruct wo2; simpl; [|repeat split].
    unfold requestClose, on_close. simpl.
    destruct iq2; simpl; [|repeat split].
    destruct q2; simpl; [repeat split|].
    unfold window_all_closed. destruct (negb _); repeat split.
  - unfold app_quit. simpl. destruct wo2; repeat split.
Qed.

Lemma run_alike platform evs w1 w2 :
  ~ In ShortcutPressed evs ->
  alike w1 w2 -> alike (run platform w1 evs) (run platform w2 evs).
Proof.
  revert w1 w2. induction evs as [|ev evs IH]; intros w1 w2 NI A; simpl.
  - exact A.
  - apply IH.
    + intros F. apply NI. right. exact F.
    + apply step_alike; [|exact A]. intros ->. apply NI. left. reflexivity.
Qed.

Lemma no_shortcut_from_renderer calls :
  ~ In ShortcutPressed (map FromRenderer calls).
Proof.
  induction calls as [|c calls IH]; simpl.
  - intros [].
  - intros [F|F]; [discriminate F|exact (IH F)].
Qed.

(** C8: when the system refuses the hotkey, ["Registration failed"] is
    written to the console and the process is running without the
    shortcut (pressing the combination does nothing); whatever the
    display process then sends over the bridge (minimize-window,
    close-window, chat-request), the window, the life-cycle flags, the
    network traffic and the answers are those of the run in which the
    hotkey was granted. *)
Theorem hotkey_failure_is_not_fatal platform n calls :
  console (ready false) = ["Registration failed"]
  /\ running (ready false) = true
  /\ step platform (boot false n) ShortcutPressed = boot false n
  /\ alike (run platform (boot false n) (map FromRenderer calls))
           (run platform (boot true n) (map FromRenderer calls)).
Proof.
  split; [reflexivity|]. split; [reflexivity|]. split; [reflexivity|].
  apply run_alike.
  - apply no_shortcut_from_renderer.
  - repeat split.
Qed.

(* ===================================================================== *)
(** ** The request *)
(* ===================================================================== *)

Lemma append_assoc (a b c : string) : ((a ++ b) ++ c = a ++ (b ++ c))%string.
Proof. induction a as [|x a IH]; simpl; [reflexivity|now rewrite IH]. Qed.

Lemma unquote_escape_char c t :
  unquote (escape_char c ++ t) = prepend c (unquote t).
Proof.
  destruct c as [[|] [|] [|] [|] [|] [|] [|] [|]]; reflexivity.
Qed.

Lemma unquote_escape s rest :
  unquote (escape s ++ dquote ++ rest) = Some (s, rest).
Proof.
  induction s as [|c s IH]; cbn [escape].
  - reflexivity.
  - rewrite append_assoc, unquote_escape_char, IH. reflexivity.
Qed.

Lemma chat_init_body message apiKey :
  body (chat_init message apiKey)
  = Some (body_prefix ++ escape message ++ dquote ++ "}]}").
Proof.
  unfold chat_init, body, payload.
  cbn [JSON_stringify map flat_map snd fst String.concat List.app].
  f_equal.
  repeat match goal with
         | |- context [quote (String ?c ?r)] =>
             let v := eval vm_compute in (quote (String c r)) in
             change (quote (String c r)) with v
         end.
  let v := eval vm_compute in body_prefix in change body_prefix with v.
  unfold quote.
  let v := eval vm_compute in dquote in change dquote with v.
  generalize (escape message) as e. intros e.
  cbn [append]. rewrite !append_assoc. cbn [append]. reflexivity.
Qed.

Lemma skip_append p s : skip (String.length p) (p ++ s) = s.
Proof. induction p as [|c p IH]; simpl; [destruct s; reflexivity|exact IH]. Qed.

Lemma user_content_of_body message apiKey :
  exists b, body (chat_init message apiKey) = Some b
            /\ user_content b = Some message.
Proof.
  eexists. split; [apply chat_init_body|].
  unfold user_content. rewrite skip_append, unquote_escape. reflexivity.
Qed.

(** The outcome depends on the network only through its answer to the
    one request. *)
Lemma chat_request_outcome message apiKey net :
  fst (chat_request message apiKey net)
  = fst (chat_request message apiKey
           (answering (respond net (chat_init message apiKey)))).
Proof.
  destruct (respond net (chat_init message apiKey)) as [e|resp] eqn:R.
  - rewrite (chat_request_rejected _ _ net e R).
    rewrite (chat_request_rejected _ _ (answering (inl e)) e eq_refl). reflexivity.
  - destruct (json resp) as [e|data] eqn:J.
    + rewrite (chat_request_unparsed _ _ net resp e R J).
      rewrite (chat_request_unparsed _ _ (answering (inr resp)) resp e eq_refl J).
      reflexivity.
    + rewrite (chat_request_parsed _ _ net resp data R J).
      rewrite (chat_request_parsed _ _ (answering (inr resp)) resp data eq_refl J).
      reflexivity.
Qed.

Lemma settle_error_message data err s :
  get data "error" = inr err -> truthy err = true ->
  get err "message" = inr (VStr s) -> s <> EmptyString ->
  settle data = Failure s.
Proof.
  intros G T M N. unfold settle. rewrite G, T, M. simpl.
  unfold or_else. simpl.
  destruct (String.eqb_spec s EmptyString) as [E|_]; [contradiction|reflexivity].
Qed.

(** C7: for every message, the empty one included, the handler does
    nothing with the message but forward it, and answers with what the
    upstream produced.  It hands exactly one request to [fetch]: a POST
    to the chat-completions endpoint with the four headers, whose body
    is the serialized payload with the fixed model and a single message
    of role [user]; the message is the content of that message and reads
    back from the body unchanged.  The answer is then the normalized
    outcome of that request: the message of the rejection when [fetch]
    rejects or the body does not parse, and otherwise what the parsed
    body settles to, in particular the upstream reply when the body
    carries one and the upstream error message when it carries that. *)
Theorem message_forwarded_as_is message apiKey net :
  issued (snd (chat_request message apiKey net))
  = (issued net ++ [chat_init message apiKey])%list
  /\ url (chat_init message apiKey)
     = "https://openrouter.ai/api/v1/chat/completions"
  /\ method (chat_init message apiKey) = "POST"
  /\ headers (chat_init message apiKey)
     = [("Authorization", "Bearer " ++ apiKey);
        ("Content-Type", "application/json");
        ("HTTP-Referer", "http://localhost");
        ("X-Title", "Desktop AI Chatbot")]
  /\ body (chat_init message apiKey) = JSON_stringify (payload message)
  /\ get (payload message) "model" = inr (VStr "openai/gpt-3.5-turbo")
  /\ get (payload message) "messages"
     = inr (VArr [VObj [("role", VStr "user"); ("content", VStr message)]])
  /\ (exists t, body (chat_init message apiKey) = Some (body_prefix ++ t)
                /\ unquote t = Some (message, "}]}"))
  /\ (exists b, body (chat_init message apiKey) = Some b
                /\ user_content b = Some message)
  /\ (forall e, respond net (chat_init message apiKey) = inl e ->
        fst (chat_request message apiKey net) = inr (Failure (Js.message e)))
  /\ (forall resp e, respond net (chat_init message apiKey) = inr resp ->
        json resp = inl e ->
        fst (chat_request message apiKey net) = inr (Failure (Js.message e)))
  /\ (forall resp data, respond net (chat_init message apiKey) = inr resp ->
        json resp = inr data ->
        fst (chat_request message apiKey net) = inr (settle data))
  /\ (forall resp data err v, respond net (chat_init message apiKey) = inr resp ->
        json resp = inr data ->
        get data "error" = inr err -> truthy err = false ->
        path data reply_path = inr v ->
        fst (chat_request message apiKey net) = inr (Success v))
  /\ (forall resp data err s, respond net (chat_init message apiKey) = inr resp ->
        json resp = inr data ->
        get data "error" = inr err -> truthy err = true ->
        get err "message" = inr (VStr s) -> s <> EmptyString ->
        fst (chat_request message apiKey net) = inr (Failure s))
  /\ (forall net',
        respond net' (chat_init message apiKey)
        = respond net (chat_init message apiKey) ->
        fst (chat_request message apiKey net')
        = fst (chat_request message apiKey net)).
Proof.
  split.
  { destruct (chat_request_resolves message apiKey net) as [r E].
    rewrite E. reflexivity. }
  do 6 (split; [reflexivity|]).
  split.
  { exists (escape message ++ dquote ++ "}]}").
    split; [apply chat_init_body|apply unquote_escape]. }
  split; [apply user_content_of_body|].
  split.
  { intros e R. rewrite (chat_request_rejected _ _ _ _ R). reflexivity. }
  split.
  { intros resp e R J. rewrite (chat_request_unparsed _ _ _ _ _ R J). reflexivity. }
  split.
  { intros resp data R J. rewrite (chat_request_parsed _ _ _ _ _ R J). reflexivity. }
  split.
  { intros resp data err v R J G T P.
    rewrite (chat_request_parsed _ _ _ _ _ R J). simpl fst.
    rewrite (settle_falsy_error _ _ G T), P. reflexivity. }
  split.
  { intros resp data err s R J G T M N.
    rewrite (chat_request_parsed _ _ _ _ _ R J). simpl fst.
    rewrite (settle_error_message _ _ _ G T M N). reflexivity. }
  intros net' H.
  rewrite (chat_request_outcome _ _ net'), (chat_request_outcome _ _ net), H.
  reflexivity.
Qed.

Lemma empty_message_is_forwarded :
  issued (snd (chat_request EmptyString "sk-or-1"
                 (answering (inr (json_response 200 (completion "Hello!"))))))
  = [chat_init EmptyString "sk-or-1"]
  /\ fst (chat_request EmptyString "sk-or-1"
            (answering (inr (json_response 200 (completion "Hello!")))))
     = inr (Success (VStr "Hello!"))
  /\ fst (chat_request EmptyString "sk-or-bad"
            (answering (inr (json_response 401 (error_body "Invalid API key")))))
     = inr (Failure "Invalid API key").
Proof.
  split; [|split].
  - apply (proj1 (message_forwarded_as_is EmptyString "sk-or-1"
                    (answering (inr (json_response 200 (completion "Hello!")))))).
  - destruct (message_forwarded_as_is EmptyString "sk-or-1"
                (answering (inr (json_response 200 (completion "Hello!")))))
      as (_ & _ & _ & _ & _ & _ & _ & _ & _ & _ & _ & _ & H & _).
    apply (H (json_response 200 (completion "Hello!")) (completion "Hello!")
             VUndefined (VStr "Hello!")); reflexivity.
  - destruct (message_forwarded_as_is EmptyString "sk-or-bad"
                (answering (inr (json_response 401 (error_body "Invalid API key")))))
      as (_ & _ & _ & _ & _ & _ & _ & _ & _ & _ & _ & _ & _ & H & _).
    apply (H (json_response 401 (error_body "Invalid API key"))
             (error_body "Invalid API key")
             (VObj [("message", VStr "Invalid API key");
                    ("code", VNum (mkNumber true "401"))])
             "Invalid API key"); try reflexivity.
    discriminate.
Defined.

(* ===================================================================== *)
(** ** The life cycle as a whole *)
(* ===================================================================== *)

Lemma ready_settled ret : settled (ready ret).
Proof.
  unfold settled, quit_intent_tracks_quit. simpl.
  repeat split; discriminate.
Qed.

Lemma step_settled platform w ev :
  settled (main w) -> settled (main (step platform w ev)).
Proof.
  destruct w as [[mw wo iq q sc co r] n rp].
  unfold settled, quit_intent_tracks_quit, step. simpl.
  intros (T & O & R). subst wo.
  destruct r; simpl; [|auto].
  destruct ev as [|m| |]; simpl.
  - destruct (existsb _ sc); simpl; [|auto].
    unfold toggle; simpl. destruct (isVisible mw); simpl; auto.
  - destruct m as [channel|channel message apiKey]; simpl.
    + unfold ipcMain_on.
      destruct (String.eqb channel "minimize-window"); simpl; [auto|].
      destruct (String.eqb channel "close-window"); simpl; auto.
    + destruct (ipcMain_handle channel message apiKey n). simpl. auto.
  - unfold requestClose, on_close. simpl.
    destruct iq; simpl.
    + rewrite (T eq_refl). simpl. auto.
    + repeat split; auto; discriminate.
  - unfold app_quit. simpl. repeat split; auto.
Qed.

Lemma run_settled platform evs w :
  settled (main w) -> settled (main (run platform w evs)).
Proof.
  revert w. induction evs as [|ev evs IH]; intros w H; simpl.
  - exact H.
  - apply IH, step_settled, H.
Qed.

Lemma run_app platform w evs1 evs2 :
  run platform w (evs1 ++ evs2) = run platform (run platform w evs1) evs2.
Proof. unfold run. apply fold_left_app. Qed.

(** X1: a process that has exited holds no global shortcut: whatever
    happened during the run, ['will-quit'] released the combination
    before the exit. *)
Theorem exit_releases_shortcuts platform ret n evs :
  running (main (run platform (boot ret n) evs)) = false ->
  shortcuts (main (run platform (boot ret n) evs)) = [].
Proof.
  apply (run_settled platform evs (boot ret n)). apply ready_settled.
Qed.

Lemma exit_releases_shortcuts_sample :
  shortcuts (main (run "linux" (boot true (answering (inl connection_refused)))
                       [ShortcutPressed; QuitRequested; CloseRequested])) = [].
Proof.
  apply (exit_releases_shortcuts "linux" true (answering (inl connection_refused))
           [ShortcutPressed; QuitRequested; CloseRequested]).
  reflexivity.
Defined.

(** X2: on every platform and at every point of a run the window exists
    exactly as long as the process runs: the close listener never lets
    the window be destroyed while the app goes on, and the app never goes
    on without its window. *)
Theorem window_lives_with_process platform ret n evs :
  windowOpen (main (run platform (boot ret n) evs))
  = running (main (run platform (boot ret n) evs)).
Proof.
  apply (run_settled platform evs (boot ret n)). apply ready_settled.
Qed.

(** The states of a run that no quit request has touched. *)
Lemma step_without_quit platform w ev :
  ev <> QuitRequested ->
  (running (main w) = true /\ windowOpen (main w) = true
   /\ isQuitting (main w) = false) ->
  (running (main (step platform w ev)) = true
   /\ windowOpen (main (step platform w ev)) = true
   /\ isQuitting (main (step platform w ev)) = false).
Proof.
  destruct w as [[mw wo iq q sc co r] n rp]. simpl.
  intros NQ (-> & -> & ->). unfold step. simpl.
  destruct ev as [|m| |]; simpl.
  - destruct (existsb _ sc); simpl; [|auto].
    unfold toggle; simpl. destruct (isVisible mw); simpl; auto.
  - destruct m as [channel|channel message apiKey]; simpl.
    + unfold ipcMain_on.
      destruct (String.eqb channel "minimize-window"); simpl; [auto|].
      destruct (String.eqb channel "close-window"); simpl; auto.
    + destruct (ipcMain_handle channel message apiKey n). simpl. auto.
  - auto.
  - contradiction.
Qed.

Lemma run_without_quit platform evs w :
  ~ In QuitRequested evs ->
  (running (main w) = true /\ windowOpen (main w) = true
   /\ isQuitting (main w) = false) ->
  (running (main (run platform w evs)) = true
   /\ windowOpen (main (run platform w evs)) = true
   /\ isQuitting (main (run platform w evs)) = false).
Proof.
  revert w. induction evs as [|ev evs IH]; intros w NI H; simpl.
  - exact H.
  - apply IH.
    + intros F. apply NI. right. exact F.
    + apply step_without_quit; [|exact H]. intros ->. apply NI. left. reflexivity.
Qed.

(** X3: hide, don't quit.  As long as no quit is requested, no sequence
    of hotkey presses, bridge messages and close requests ends the
    process or destroys the window: every close request is answered by
    hiding. *)
Theorem only_a_quit_request_ends_the_process platform ret n evs :
  ~ In QuitRequested evs ->
  running (main (run platform (boot ret n) evs)) = true
  /\ windowOpen (main (run platform (boot ret n) evs)) = true
  /\ isQuitting (main (run platform (boot ret n) evs)) = false.
Proof.
  intros NI. apply run_without_quit; [exact NI|]. repeat split.
Qed.

Lemma closing_thrice_keeps_running :
  running (main (run "win32" (boot true (answering (inl connection_refused)))
                     [CloseRequested; FromRenderer closeWindow; CloseRequested;
                      ShortcutPressed; CloseRequested])) = true.
Proof.
  apply (only_a_quit_request_ends_the_process "win32" true
           (answering (inl connection_refused))
           [CloseRequested; FromRenderer closeWindow; CloseRequested;
            ShortcutPressed; CloseRequested]).
  intros F. simpl in F. repeat (destruct F as [F|F]; [discriminate F|]). exact F.
Defined.

Lemma quit_then_close platform w :
  settled (main w) ->
  running (main (run platform w [QuitRequested; CloseRequested])) = false
  /\ windowOpen (main (run platform w [QuitRequested; CloseRequested])) = false
  /\ shortcuts (main (run platform w [QuitRequested; CloseRequested])) = [].
Proof.
  destruct w as [[mw wo iq q sc co r] n rp].
  unfold settled, quit_intent_tracks_quit. simpl.
  intros (T & O & R). subst wo.
  destruct r; simpl.
  - repeat split.
  - repeat split. apply R. reflexivity.
Qed.

(** X4: quitting always works.  At any point of a run, on any platform,
    a quit request followed by the close request it sends to the window
    ends the process: the window is destroyed, the process has exited and
    the shortcut is released. *)
Theorem quit_sequence_ends_the_process platform ret n evs :
  running (main (run platform (boot ret n)
                     (evs ++ [QuitRequested; CloseRequested]))) = false
  /\ windowOpen (main (run platform (boot ret n)
                          (evs ++ [QuitRequested; CloseRequested]))) = false
  /\ shortcuts (main (run platform (boot ret n)
                         (evs ++ [QuitRequested; CloseRequested]))) = [].
Proof.
  rewrite run_app. apply quit_then_close.
  apply run_settled, ready_settled.
Qed.

Lemma step_any_platform p1 p2 w ev :
  quit_intent_tracks_quit (main w) ->
  step p1 w ev = step p2 w ev.
Proof.
  destruct w as [[mw wo iq q sc co r] n rp].
  unfold quit_intent_tracks_quit, step. simpl. intros T.
  destruct r; simpl; [|reflexivity].
  destruct ev as [|m| |]; try reflexivity.
  destruct wo; [|reflexivity].
  unfold on_main, requestClose, on_close. simpl.
  destruct iq; simpl; [|reflexivity].
  rewrite (T eq_refl). reflexivity.
Qed.

Lemma run_any_platform p1 p2 evs w :
  quit_intent_tracks_quit (main w) ->
  run p1 w evs = run p2 w evs.
Proof.
  revert w. induction evs as [|ev evs IH]; intros w T; simpl.
  - reflexivity.
  - rewrite (step_any_platform p1 p2 w ev T).
    apply IH, step_keeps_tracking, T.
Qed.

(** X5: the platform test of the ['window-all-closed'] listener never
    decides anything: the window can only be destroyed during a quit
    sequence, where Electron shuts down without emitting that event, so
    every run is the same on every platform. *)
Theorem runs_do_not_depend_on_platform p1 p2 ret n evs :
  run p1 (boot ret n) evs = run p2 (boot ret n) evs.
Proof.
  apply run_any_platform. intros F. discriminate F.
Qed.

(** X6: the listener itself, on a process left without a window: on
    macOS it leaves the process as it is; everywhere else it quits, which
    sets the quit intent, releases the shortcuts and ends the process. *)
Theorem window_all_closed_by_platform platform st :
  windowOpen st = false ->
  (String.eqb platform "darwin" = true -> window_all_closed platform st = st)
  /\ (String.eqb platform "darwin" = false ->
      running (window_all_closed platform st) = false
      /\ isQuitting (window_all_closed platform st) = true
      /\ shortcuts (window_all_closed platform st) = []).
Proof.
  intros W. unfold window_all_closed, app_quit. simpl. rewrite W. split.
  - intros ->. reflexivity.
  - intros ->. simpl. repeat split.
Qed.

Lemma window_all_closed_sample :
  window_all_closed "darwin" (destroy_window (ready true))
  = destroy_window (ready true)
  /\ running (window_all_closed "win32" (destroy_window (ready true))) = false.
Proof.
  split.
  - apply (proj1 (window_all_closed_by_platform "darwin"
                    (destroy_window (ready true)) eq_refl)).
    reflexivity.
  - apply (proj2 (window_all_closed_by_platform "win32"
                    (destroy_window (ready true)) eq_refl)).
    reflexivity.
Defined.

(* ===================================================================== *)
(** ** The bridge as a whole *)
(* ===================================================================== *)

Lemma step_from_renderer_frame platform w m :
  let w' := step platform w (FromRenderer m) in
  running (main w') = running (main w)
  /\ windowOpen (main w') = windowOpen (main w)
  /\ isQuitting (main w') = isQuitting (main w)
  /\ quitting (main w') = quitting (main w)
  /\ shortcuts (main w') = shortcuts (main w)
  /\ console (main w') = console (main w).
Proof.
  destruct w as [[mw wo iq q sc co r] n rp]. unfold step. simpl.
  destruct r; simpl; [|repeat split].
  destruct wo; simpl; [|repeat split].
  destruct m as [channel|channel message apiKey]; simpl.
  - unfold ipcMain_on.
    destruct (String.eqb channel "minimize-window"); simpl; [repeat split|].
    destruct (String.eqb channel "close-window"); simpl; repeat split.
  - destruct (ipcMain_handle channel message apiKey n). simpl. repeat split.
Qed.

(** X7: nothing the display process sends over the bridge can end the
    process, destroy the window, start a quit, release the hotkey or
    write to the console: after any sequence of messages, on any channel,
    these are as they were. *)
Theorem renderer_cannot_touch_life_cycle platform w msgs :
  running (main (run platform w (map FromRenderer msgs))) = running (main w)
  /\ windowOpen (main (run platform w (map FromRenderer msgs))) = windowOpen (main w)
  /\ isQuitting (main (run platform w (map FromRenderer msgs))) = isQuitting (main w)
  /\ quitting (main (run platform w (map FromRenderer msgs))) = quitting (main w)
  /\ shortcuts (main (run platform w (map FromRenderer msgs))) = shortcuts (main w)
  /\ console (main (run platform w (map FromRenderer msgs))) = console (main w).
Proof.
  revert w. induction msgs as [|m msgs IH]; intros w; simpl.
  - repeat split.
  - destruct (IH (step platform w (FromRenderer m))) as (A & B & C & D & E & F).
    destruct (step_from_renderer_frame platform w m) as (A' & B' & C' & D' & E' & F').
    unfold run in *.
    rewrite A, B, C, D, E, F, A', B', C', D', E', F'. repeat split.
Qed.

Lemma step_sendChat platform w message apiKey :
  running (main w) = true -> windowOpen (main w) = true ->
  exists r,
    step platform w (FromRenderer (sendChat message apiKey))
    = {| main := main w;
         net := after (net w) (chat_init message apiKey);
         replies := replies w ++ [inr r] |}.
Proof.
  intros R W. unfold step. rewrite R, W. cbn -[chat_request].
  destruct (chat_request_resolves message apiKey (net w)) as [r E].
  exists r. rewrite E. reflexivity.
Qed.

(** X8: the preload script and the main process agree on the channels.
    In a running process each of the three functions exposed as
    [electronAPI] reaches the listener meant for it: [minimizeWindow]
    minimizes, [closeWindow] hides, and [sendChat] runs the chat handler
    once, the promise it returns resolving with a result object. *)
Theorem electronAPI_reaches_its_handlers platform w :
  running (main w) = true ->
  windowOpen (main w) = true ->
  step platform w (FromRenderer minimizeWindow) = on_main minimize_window w
  /\ step platform w (FromRenderer closeWindow) = on_main close_window w
  /\ (forall message apiKey,
        exists r,
          fst (chat_request message apiKey (net w)) = inr r
          /\ step platform w (FromRenderer (sendChat message apiKey))
             = {| main := main w;
                  net := after (net w) (chat_init message apiKey);
                  replies := replies w ++ [inr r] |}).
Proof.
  intros R W. split; [|split].
  - unfold step. rewrite R, W. reflexivity.
  - unfold step. rewrite R, W. reflexivity.
  - intros message apiKey.
    destruct (chat_request_resolves message apiKey (net w)) as [r E].
    exists r. split; [rewrite E; reflexivity|].
    unfold step. rewrite R, W. cbn -[chat_request]. rewrite E. reflexivity.
Qed.

Lemma electronAPI_sample :
  minimized (mainWindow (main (step "linux"
                                 (boot true (answering (inl connection_refused)))
                                 (FromRenderer minimizeWindow)))) = true
  /\ isVisible (mainWindow (main (step "linux"
                                    (boot true (answering (inl connection_refused)))
                                    (FromRenderer closeWindow)))) = false.
Proof.
  split.
  - rewrite (proj1 (electronAPI_reaches_its_handlers "linux"
                      (boot true (answering (inl connection_refused)))
                      eq_refl eq_refl)).
    reflexivity.
  - rewrite (proj1 (proj2 (electronAPI_reaches_its_handlers "linux"
                             (boot true (answering (inl connection_refused)))
                             eq_refl eq_refl))).
    reflexivity.
Defined.

Lemma run_chat_calls platform calls w :
  running (main w) = true -> windowOpen (main w) = true ->
  main (run platform w (map chat_call calls)) = main w
  /\ issued (net (run platform w (map chat_call calls)))
     = (issued (net w) ++ map (fun c => chat_init (fst c) (snd c)) calls)%list
  /\ exists rs,
       replies (run platform w (map chat_call calls))
       = (replies w ++ map inr rs)%list
       /\ length rs = length calls.
Proof.
  revert w. induction calls as [|c calls IH]; intros w R W.
  - simpl. rewrite !app_nil_r. split; [reflexivity|]. split; [reflexivity|].
    exists []. simpl. rewrite app_nil_r. split; reflexivity.
  - destruct (step_sendChat platform w (fst c) (snd c) R W) as [r E].
    change (run platform w (map chat_call (c :: calls)))
      with (run platform (step platform w (chat_call c)) (map chat_call calls)).
    unfold chat_call at 1 3 5. rewrite E.
    match goal with
    | |- context [run platform ?w1 _] =>
        destruct (IH w1 R W) as (M & I & rs & P & L)
    end.
    rewrite M, I, P. simpl. split; [reflexivity|].
    split; [rewrite <- app_assoc; reflexivity|].
    exists (r :: rs). simpl. rewrite <- app_assoc, L. split; reflexivity.
Qed.

(** X9: no retries, no batching, nothing dropped.  When the display
    process makes a series of chat calls, the main process hands [fetch]
    exactly one request per call, in the order of the calls, each built
    from that call's message and credential; it gives exactly one reply
    per call, each a resolved result; and it leaves the window and the
    life cycle alone. *)
Theorem one_request_per_chat_call platform ret n calls :
  main (run platform (boot ret n) (map chat_call calls)) = ready ret
  /\ issued (net (run platform (boot ret n) (map chat_call calls)))
     = (issued n ++ map (fun c => chat_init (fst c) (snd c)) calls)%list
  /\ exists rs,
       replies (run platform (boot ret n) (map chat_call calls)) = map inr rs
       /\ length rs = length calls.
Proof.
  apply (run_chat_calls platform calls (boot ret n)); reflexivity.
Qed.

Lemma step_issues_to_endpoint platform w ev :
  exists added,
    issued (net (step platform w ev)) = (issued (net w) ++ added)%list
    /\ Forall to_endpoint added.
Proof.
  assert (Same : exists added,
             issued (net w) = (issued (net w) ++ added)%list
             /\ Forall to_endpoint added).
  { exists []. rewrite app_nil_r. split; [reflexivity|constructor]. }
  unfold step. destruct (running (main w)); simpl; [|exact Same].
  destruct ev as [|m| |]; simpl.
  - destruct (_ && _); exact Same.
  - destruct (windowOpen (main w)); [|exact Same].
    destruct m as [channel|channel message apiKey]; simpl; [exact Same|].
    unfold ipcMain_handle.
    destruct (String.eqb channel "chat-request"); cbn -[chat_request].
    + destruct (chat_request_resolves message apiKey (net w)) as [r E].
      rewrite E. simpl. exists [chat_init message apiKey].
      split; [reflexivity|]. constructor; [|constructor]. split; reflexivity.
    + exact Same.
  - destruct (windowOpen (main w)); exact Same.
  - exact Same.
Qed.

(** X10: the program asks [fetch] for one place only.  Over any run,
    whatever the events and whatever the channels the display process
    uses, every call the process makes to [fetch] names the fixed
    chat-completions endpoint with the method POST.  (What the library
    does on the wire to serve such a call is outside the program.) *)
Theorem fetch_is_only_called_on_the_endpoint platform w evs :
  exists added,
    issued (net (run platform w evs)) = (issued (net w) ++ added)%list
    /\ Forall to_endpoint added.
Proof.
  revert w. induction evs as [|ev evs IH]; intros w; simpl.
  - exists []. rewrite app_nil_r. split; [reflexivity|constructor].
  - destruct (IH (step platform w ev)) as (a2 & E2 & F2).
    destruct (step_issues_to_endpoint platform w ev) as (a1 & E1 & F1).
    exists (a1 ++ a2)%list. unfold run in *. rewrite E2, E1, app_assoc.
    split; [reflexivity|]. apply Forall_app. split; assumption.
Qed.

(** X13: the hotkey brings back what the close button hid.  In a running
    process that holds the shortcut, the [close-window] command followed
    by a press of the hotkey leaves the window shown and focused. *)
Theorem hotkey_restores_closed_window platform w :
  running (main w) = true ->
  windowOpen (main w) = true ->
  In accelerator (shortcuts (main w)) ->
  isVisible (mainWindow (main (run platform w
                                 [FromRenderer closeWindow; ShortcutPressed]))) = true
  /\ focused (mainWindow (main (run platform w
                                  [FromRenderer closeWindow; ShortcutPressed]))) = true.
Proof.
  intros R W S.
  assert (X : existsb (String.eqb accelerator) (shortcuts (main w)) = true).
  { apply existsb_exists. exists accelerator. split; [exact S|apply String.eqb_refl]. }
  destruct w as [[mw wo iq q sc co r] n rp]. simpl in *. subst r wo.
  unfold step. simpl. rewrite X. simpl. split; reflexivity.
Qed.

Lemma hotkey_restores_sample :
  isVisible (mainWindow (main (run "win32"
                                 (boot true (answering (inl connection_refused)))
                                 [FromRenderer closeWindow; ShortcutPressed]))) = true.
Proof.
  apply (hotkey_restores_closed_window "win32"
           (boot true (answering (inl connection_refused))) eq_refl eq_refl).
  left. reflexivity.
Defined.

Lemma step_keeps_no_shortcut platform w ev :
  shortcuts (main w) = [] -> shortcuts (main (step platform w ev)) = [].
Proof.
  destruct w as [[mw wo iq q sc co r] n rp]. simpl.
  intros ->. unfold step. simpl.
  destruct r; simpl; [|reflexivity].
  destruct ev as [|m| |]; simpl.
  - reflexivity.
  - destruct wo; simpl; [|reflexivity].
    destruct m as [channel|channel message apiKey]; simpl.
    + unfold ipcMain_on.
      destruct (String.eqb channel "minimize-window"); simpl; [reflexivity|].
      destruct (String.eqb channel "close-window"); reflexivity.
    + destruct (ipcMain_handle channel message apiKey n). reflexivity.
  - destruct wo; simpl; [|reflexivity].
    unfold requestClose, on_close. simpl.
    destruct iq; simpl; [|reflexivity].
    destruct q; simpl; [reflexivity|].
    unfold window_all_closed, app_quit. destruct (negb _); reflexivity.
  - unfold app_quit. simpl. destruct wo; reflexivity.
Qed.

Lemma run_keeps_no_shortcut platform evs w :
  shortcuts (main w) = [] -> shortcuts (main (run platform w evs)) = [].
Proof.
  revert w. induction evs as [|ev evs IH]; intros w S; simpl.
  - exact S.
  - apply IH, step_keeps_no_shortcut, S.
Qed.

Lemma step_stays_hidden platform w ev :
  ev <> FromRenderer minimizeWindow ->
  shortcuts (main w) = [] -> isVisible (mainWindow (main w)) = false ->
  isVisible (mainWindow (main (step platform w ev))) = false.
Proof.
  destruct w as [[[v f mi] wo iq q sc co r] n rp]. simpl.
  intros NM -> ->. unfold step. simpl.
  destruct r; simpl; [|reflexivity].
  destruct ev as [|m| |]; simpl.
  - reflexivity.
  - destruct wo; simpl; [|reflexivity].
    destruct m as [channel|channel message apiKey]; simpl.
    + unfold ipcMain_on.
      destruct (String.eqb_spec channel "minimize-window") as [->|_].
      * exfalso. apply NM. reflexivity.
      * destruct (String.eqb channel "close-window"); reflexivity.
    + destruct (ipcMain_handle channel message apiKey n). reflexivity.
  - destruct wo; simpl; [|reflexivity].
    unfold requestClose, on_close. simpl.
    destruct iq; simpl; [|reflexivity].
    destruct q; simpl; [reflexivity|].
    unfold window_all_closed, app_quit. destruct (negb _); reflexivity.
  - unfold app_quit. simpl. destruct wo; reflexivity.
Qed.

Lemma run_stays_hidden platform evs w :
  ~ In (FromRenderer minimizeWindow) evs ->
  shortcuts (main w) = [] -> isVisible (mainWindow (main w)) = false ->
  isVisible (mainWindow (main (run platform w evs))) = false.
Proof.
  revert w. induction evs as [|ev evs IH]; intros w NI S V; simpl.
  - exact V.
  - apply IH.
    + intros F. apply NI. right. exact F.
    + apply step_keeps_no_shortcut, S.
    + apply step_stays_hidden; [|exact S|exact V].
      intros ->. apply NI. left. reflexivity.
Qed.

(** X14: without the hotkey a hidden window stays hidden.  When the
    registration failed at startup and the window is hidden at some
    point of the run, however it came to be, then no later hotkey press,
    [close-window] command, chat call, message on another channel, close
    request or quit request shows it again: the hotkey callback is the
    only code of the program that calls [show].  (What [minimize] does to
    a hidden window is the windowing system's business, so
    [minimize-window] is left out of the later events.) *)
Theorem hidden_for_good_without_hotkey platform n before later :
  isVisible (mainWindow (main (run platform (boot false n) before))) = false ->
  ~ In (FromRenderer minimizeWindow) later ->
  isVisible (mainWindow (main (run platform (boot false n) (before ++ later))))
  = false.
Proof.
  intros V NI. rewrite run_app.
  apply run_stays_hidden; [exact NI| |exact V].
  apply run_keeps_no_shortcut. reflexivity.
Qed.

Lemma hidden_for_good_sample :
  isVisible (mainWindow (main (run "win32"
      (boot false (answering (inl connection_refused)))
      ([ShortcutPressed; FromRenderer closeWindow]
       ++ [ShortcutPressed; CloseRequested; FromRenderer (sendChat "Hi" "sk-or-1");
           ShortcutPressed])))) = false.
Proof.
  apply (hidden_for_good_without_hotkey "win32"
           (answering (inl connection_refused))
           [ShortcutPressed; FromRenderer closeWindow]
           [ShortcutPressed; CloseRequested; FromRenderer (sendChat "Hi" "sk-or-1");
            ShortcutPressed]).
  - reflexivity.
  - intros F. simpl in F.
    repeat (destruct F as [F|F]; [discriminate F|]). exact F.
Defined.

(* ===================================================================== *)
(** ** The relay as a whole *)
(* ===================================================================== *)

Lemma settle_success data v :
  settle data = Success v ->
  exists err, get data "error" = inr err /\ truthy err = false
              /\ path data reply_path = inr v.
Proof.
  unfold settle.
  destruct (get data "error") as [e|err]; [discriminate|].
  destruct (truthy err) eqn:T.
  - destruct (bind _ _) as [e|e]; discriminate.
  - destruct (path data reply_path) as [e|content]; [discriminate|].
    intros H. injection H as H. subst content.
    exists err. split; [reflexivity|]. split; [exact T|reflexivity].
Qed.

(** X11: [success: true] means one thing only.  The handler answers
    [{success: true, message: v}] exactly when [fetch] resolved, the body
    parsed, its [error] field is falsy and [choices[0].message.content]
    read to [v] without throwing; in every other case the promise still
    resolves, and the answer is [{success: false, error}]. *)
Theorem success_exactly_from_reply_path message apiKey net :
  (forall v,
     fst (chat_request message apiKey net) = inr (Success v)
     <-> exists resp data err,
           respond net (chat_init message apiKey) = inr resp
           /\ json resp = inr data
           /\ get data "error" = inr err
           /\ truthy err = false
           /\ path data reply_path = inr v)
  /\ ((forall resp data err v,
         respond net (chat_init message apiKey) = inr resp ->
         json resp = inr data ->
         get data "error" = inr err ->
         truthy err = false ->
         path data reply_path <> inr v) ->
      exists s, fst (chat_request message apiKey net) = inr (Failure s)).
Proof.
  assert (Fwd : forall v,
            fst (chat_request message apiKey net) = inr (Success v) ->
            exists resp data err,
              respond net (chat_init message apiKey) = inr resp
              /\ json resp = inr data
              /\ get data "error" = inr err
              /\ truthy err = false
              /\ path data reply_path = inr v).
  { intros v.
    destruct (respond net (chat_init message apiKey)) as [e|resp] eqn:R.
    - rewrite (chat_request_rejected _ _ _ _ R). discriminate.
    - destruct (json resp) as [e|data] eqn:J.
      + rewrite (chat_request_unparsed _ _ _ _ _ R J). discriminate.
      + rewrite (chat_request_parsed _ _ _ _ _ R J). simpl fst.
        intros H. injection H as H.
        destruct (settle_success _ _ H) as (err & G & T & P).
        exists resp, data, err. repeat split; assumption. }
  split.
  - intros v. split; [apply Fwd|].
    intros (resp & data & err & R & J & G & T & P).
    rewrite (chat_request_parsed _ _ _ _ _ R J). simpl fst.
    rewrite (settle_falsy_error _ _ G T), P. reflexivity.
  - intros Never.
    destruct (chat_request_resolves message apiKey net) as [r E].
    rewrite E in Fwd |- *. simpl fst in *.
    destruct r as [v|s].
    + destruct (Fwd v eq_refl) as (resp & data & err & R & J & G & T & P).
      exfalso. exact (Never resp data err v R J G T P).
    + exists s. reflexivity.
Qed.

Lemma success_exactly_sample :
  (exists resp data err,
     respond (answering (inr (json_response 200 (completion "Hello!"))))
             (chat_init "Hi" "sk-or-1") = inr resp
     /\ json resp = inr data
     /\ get data "error" = inr err
     /\ truthy err = false
     /\ path data reply_path = inr (VStr "Hello!"))
  /\ exists s,
       fst (chat_request "Hi" "sk-or-1" (answering (inl connection_refused)))
       = inr (Failure s).
Proof.
  split.
  - apply (proj1 (proj1 (success_exactly_from_reply_path "Hi" "sk-or-1"
                           (answering (inr (json_response 200 (completion "Hello!")))))
                    (VStr "Hello!"))).
    reflexivity.
  - apply (proj2 (success_exactly_from_reply_path "Hi" "sk-or-1"
                    (answering (inl connection_refused)))).
    intros resp data err v R. discriminate R.
Defined.

(** X12: the request determines the call.  Two calls that produce the
    same request had the same message and the same credential: nothing
    of either is lost or merged on the way to [fetch]. *)
Theorem chat_init_injective m1 k1 m2 k2 :
  chat_init m1 k1 = chat_init m2 k2 -> m1 = m2 /\ k1 = k2.
Proof.
  intros H. split.
  - destruct (user_content_of_body m1 k1) as (b1 & B1 & U1).
    destruct (user_content_of_body m2 k2) as (b2 & B2 & U2).
    rewrite H, B2 in B1. injection B1 as <-.
    rewrite U2 in U1. injection U1 as ->. reflexivity.
  - assert (A : headers (chat_init m1 k1) = headers (chat_init m2 k2))
      by (rewrite H; reflexivity).
    simpl in A. injection A as A. exact A.
Qed.

Lemma chat_init_injective_sample :
  "say }]} twice" = "say }]} twice" /\ "sk-or-1" = "sk-or-1".
Proof.
  apply (chat_init_injective "say }]} twice" "sk-or-1" "say }]} twice" "sk-or-1").
  reflexivity.
Defined.

(** X15: the status line is ignored.  Two responses whose bodies parse
    alike are answered alike, whatever their statuses: a 200 and a 500
    carrying the same body give the same result. *)
Theorem status_is_ignored message apiKey resp1 resp2 :
  json resp1 = json resp2 ->
  fst (chat_request message apiKey (answering (inr resp1)))
  = fst (chat_request message apiKey (answering (inr resp2))).
Proof.
  intros H.
  destruct (json resp2) as [e|data] eqn:J2.
  - rewrite (chat_request_unparsed _ _ (answering (inr resp1)) resp1 e eq_refl H).
    rewrite (chat_request_unparsed _ _ (answering (inr resp2)) resp2 e eq_refl J2).
    reflexivity.
  - rewrite (chat_request_parsed _ _ (answering (inr resp1)) resp1 data eq_refl H).
    rewrite (chat_request_parsed _ _ (answering (inr resp2)) resp2 data eq_refl J2).
    reflexivity.
Qed.

Lemma status_is_ignored_sample :
  fst (chat_request "Hi" "sk-or-1"
         (answering (inr (json_response 200 (error_body "Rate limited")))))
  = fst (chat_request "Hi" "sk-or-1"
           (answering (inr (json_response 429 (error_body "Rate limited"))))).
Proof.
  apply (status_is_ignored "Hi" "sk-or-1"
           (json_response 200 (error_body "Rate limited"))
           (json_response 429 (error_body "Rate limited"))).
  reflexivity.
Defined.

(** X16: the user's words cannot rewrite the request.  Whatever the
    message contains (quotes, backslashes, braces, control characters),
    the body is the fixed opening, one string literal that reads back as
    the message and ends at its own closing quote, and the fixed ending:
    the model name and the shape of the payload are out of the message's
    reach. *)
Theorem message_cannot_escape_its_literal message apiKey :
  exists t,
    body (chat_init message apiKey) = Some (body_prefix ++ t)
    /\ unquote t = Some (message, "}]}").
Proof.
  exists (escape message ++ dquote ++ "}]}"). split.
  - apply chat_init_body.
  - apply unquote_escape.
Qed.
